(** * Ground control system demo: telemetry models, main window, database and parser

    A shallow embedding of [gcs_interface_stub.py].  The dataclasses become
    records, the [drone_states] dict a finite map keyed by the Python ints,
    Python floats are IEEE binary64 values, and every method is a computation
    in a small state-and-exception monad over the attributes of [self]. *)

From Stdlib Require Import ZArith List String Ascii Bool Lia.
From Stdlib Require Import PrimFloat.
From stdpp Require Import gmap.

Local Open Scope Z_scope.
Local Open Scope string_scope.

(** ** Python computations: a result or a raised exception, over a state *)

Inductive outcome (A : Type) : Type :=
| Returned (v : A)
| Raised (exc_class : string).
Arguments Returned {A} v.
Arguments Raised {A} exc_class.

Definition Py (St A : Type) : Type := St -> outcome A * St.

Definition ret {St A} (v : A) : Py St A := fun s => (Returned v, s).

Definition raise {St A} (exc_class : string) : Py St A :=
  fun s => (Raised exc_class, s).

Definition bind {St A B} (m : Py St A) (k : A -> Py St B) : Py St B :=
  fun s =>
    match m s with
    | (Returned v, s') => k v s'
    | (Raised e, s') => (Raised e, s')
    end.

Notation "x <- m ;; k" := (bind m (fun x => k))
  (at level 100, m at next level, right associativity).
Notation "m ;;; k" := (bind m (fun _ => k))
  (at level 100, right associativity).

(** The [pass] statement. *)
Definition pass {St} : Py St unit := ret tt.

(** Attribute assignment [self.attr = v], given the record update. *)
Definition assign {St} (upd : St -> St) : Py St unit := fun s => (Returned tt, upd s).

Definition result_of {St A} (r : outcome A * St) : outcome A := fst r.
Definition state_of {St A} (r : outcome A * St) : St := snd r.

(** ** Theme constants *)

Definition DARK_BG : string := "#0C0F12".
Definition CARD_BG : string := "#121821".

(** ** Telemetry data models *)

Module DroneState.
Record t : Type := mk {
  drone_id : Z;
  team_id : string;
  mission_time : string;
  altitude : float;
  battery : Z;
  lat : float;
  lon : float;
  link_status : string;
  autonomy_mode : string;
  geofence_breach : Z;
  payload_status : string
}.

(** The call [DroneState(drone_id)]: every other field takes the default
    the dataclass declares. *)
Definition __init__ (drone_id : Z) : t :=
  {| drone_id := drone_id;
     team_id := "1000";
     mission_time := "--:--:--";
     altitude := 0%float;
     battery := 0;
     lat := 0%float;
     lon := 0%float;
     link_status := "GOOD";
     autonomy_mode := "AUTO";
     geofence_breach := 0;
     payload_status := "NONE" |}.
End DroneState.

(** [datetime.datetime] values, field by field. *)
Record datetime : Type := mk_datetime {
  year : Z; month : Z; day : Z;
  hour : Z; minute : Z; second : Z; microsecond : Z
}.

Module DetectionEvent.
Record t : Type := mk {
  timestamp : datetime;
  drone_id : Z;
  detection_type : string;
  confidence : float;
  lat : float;
  lon : float
}.
End DetectionEvent.

(** ** Qt timers, as far as the window uses them *)

(** The bound methods that the program connects to a signal. *)
Inductive slot : Type :=
| slot_update_telemetry.

Record QTimer : Type := mk_QTimer {
  timeout_slots : list slot;   (* timeout.connect(...) appends here *)
  interval_ms : Z;             (* set by start(msec) *)
  active : bool                (* set by start(msec) *)
}.

Definition QTimer_new : QTimer :=
  {| timeout_slots := []; interval_ms := 0; active := false |}.

Definition QTimer_connect (sl : slot) (t : QTimer) : QTimer :=
  {| timeout_slots := timeout_slots t ++ [sl];
     interval_ms := interval_ms t;
     active := active t |}.

Definition QTimer_start (msec : Z) (t : QTimer) : QTimer :=
  {| timeout_slots := timeout_slots t;
     interval_ms := msec;
     active := true |}.

(** Timeouts per second of a running timer. *)
Definition timeouts_per_second (t : QTimer) : Z := 1000 / interval_ms t.

(** ** Main window *)

Module NIDAR_GCS.
Record self : Type := mk {
  drone_states : gmap Z DroneState.t;
  detection_events : list DetectionEvent.t;
  window_title : option string;
  geometry : option (Z * Z * Z * Z);
  style_sheet : option string;
  splitter_sizes : list Z;
  telemetry_timer : option QTimer
}.

(** The object as [super().__init__()] leaves it: no attribute of this
    class is set yet. *)
Definition blank : self :=
  {| drone_states := ∅; detection_events := [];
     window_title := None; geometry := None; style_sheet := None;
     splitter_sizes := []; telemetry_timer := None |}.

Definition set_drone_states (d : gmap Z DroneState.t) (s : self) : self :=
  mk d (detection_events s) (window_title s) (geometry s) (style_sheet s)
     (splitter_sizes s) (telemetry_timer s).
Definition set_detection_events (l : list DetectionEvent.t) (s : self) : self :=
  mk (drone_states s) l (window_title s) (geometry s) (style_sheet s)
     (splitter_sizes s) (telemetry_timer s).
Definition set_window_title (w : string) (s : self) : self :=
  mk (drone_states s) (detection_events s) (Some w) (geometry s) (style_sheet s)
     (splitter_sizes s) (telemetry_timer s).
Definition set_geometry (g : Z * Z * Z * Z) (s : self) : self :=
  mk (drone_states s) (detection_events s) (window_title s) (Some g) (style_sheet s)
     (splitter_sizes s) (telemetry_timer s).
Definition set_style_sheet (c : string) (s : self) : self :=
  mk (drone_states s) (detection_events s) (window_title s) (geometry s) (Some c)
     (splitter_sizes s) (telemetry_timer s).
Definition set_splitter_sizes (z : list Z) (s : self) : self :=
  mk (drone_states s) (detection_events s) (window_title s) (geometry s) (style_sheet s)
     z (telemetry_timer s).
Definition set_telemetry_timer (t : QTimer) (s : self) : self :=
  mk (drone_states s) (detection_events s) (window_title s) (geometry s) (style_sheet s)
     (splitter_sizes s) (Some t).

(** [init_ui], as far as it sets attributes of the window itself: title,
    geometry, style sheet and splitter sizes.  The child widgets it also
    builds (header label, left panel, map, right panel with its plots, log
    panel) are not part of this state; they read the clock and random
    numbers, and none of them touches [drone_states], [detection_events]
    or [telemetry_timer]. *)
Definition init_ui : Py self unit :=
  assign (set_window_title "NIDAR Ground Control System - Demo") ;;;
  assign (set_geometry (100, 100, 1400, 900)) ;;;
  assign (set_style_sheet ("background-color: " ++ DARK_BG ++ "; color: white;")) ;;;
  assign (set_splitter_sizes [350; 600; 450]).

(** A method call on [self.telemetry_timer]; reading an attribute that was
    never assigned raises [AttributeError]. *)
Definition on_telemetry_timer (f : QTimer -> QTimer) : Py self unit :=
  fun s =>
    match telemetry_timer s with
    | Some t => (Returned tt, set_telemetry_timer (f t) s)
    | None => (Raised "AttributeError", s)
    end.

Definition init_timers : Py self unit :=
  assign (set_telemetry_timer QTimer_new) ;;;
  on_telemetry_timer (QTimer_connect slot_update_telemetry) ;;;
  on_telemetry_timer (QTimer_start 1000).

Definition update_telemetry : Py self unit := pass.

Definition __init__ : Py self unit :=
  assign (set_drone_states
            (<[2 := DroneState.__init__ 2]> (<[1 := DroneState.__init__ 1]> ∅))) ;;;
  assign (set_detection_events []) ;;;
  init_ui ;;;
  init_timers.
End NIDAR_GCS.

(** ** Database integration *)

Module MissionDatabase.
Record self : Type := mk { db_path : string }.

Definition default_db_path : string := "mission_data.db".

Definition __init__ (db_path : string) : self := {| db_path := db_path |}.

Definition log_telemetry (drone_state : DroneState.t) : Py self unit := pass.

Definition log_detection (detection : DetectionEvent.t) : Py self unit := pass.
End MissionDatabase.

(** ** Telemetry parser *)

Module TelemetryParser.
Definition CSV_FIELDS : list string :=
  [ "DRONE_ID"; "TEAM_ID"; "MISSION_TIME"; "PACKET_COUNT"; "MODE"; "STATE";
    "ALTITUDE"; "TEMP"; "PRESSURE"; "VOLTAGE";
    "GYRO_R"; "GYRO_P"; "GYRO_Y"; "ACCEL_R"; "ACCEL_P"; "ACCEL_Y";
    "MAG_R"; "MAG_P"; "MAG_Y"; "GPS_TIME"; "GPS_ALT"; "LAT"; "LON"; "SATS";
    "BATTERY"; "LINK_STATUS"; "AUTONOMY_MODE"; "GEOFENCE_BREACH";
    "PAYLOAD_STATUS"; "DETECTION_FLAG"; "DETECTION_TYPE";
    "DETECTION_CONF"; "DETECTION_LAT"; "DETECTION_LON"; "CMD_ECHO" ].

(** A static method: it has no [self], so it runs over whatever state the
    caller has.  Its body is [pass], after which Python returns [None]. *)
Definition parse_packet {St} (csv_line : string) : Py St (option DroneState.t) :=
  pass ;;; ret None.
End TelemetryParser.

(** ** The running application

    [main] builds one [NIDAR_GCS] window and enters the Qt event loop.  The
    only signal the program connects is the timeout of [telemetry_timer]. *)

Module QApplication.
Import NIDAR_GCS.

Inductive event : Type :=
| telemetry_timer_timeout.

Definition run_slot (sl : slot) : Py self unit :=
  match sl with
  | slot_update_telemetry => update_telemetry
  end.

(** Emitting a signal calls the connected slots in connection order. *)
Fixpoint emit (slots : list slot) : Py self unit :=
  match slots with
  | [] => ret tt
  | sl :: rest => run_slot sl ;;; emit rest
  end.

Definition dispatch (e : event) : Py self unit :=
  fun s =>
    match e with
    | telemetry_timer_timeout =>
        match telemetry_timer s with
        | Some t => if active t then emit (timeout_slots t) s else (Returned tt, s)
        | None => (Returned tt, s)
        end
    end.

(** The window as [gcs = NIDAR_GCS()] in [main] leaves it. *)
Definition main_window : self := state_of (__init__ blank).

(** The window after the event loop has delivered [events], oldest first. *)
Fixpoint run_events (events : list event) (s : self) : self :=
  match events with
  | [] => s
  | e :: rest => run_events rest (state_of (dispatch e s))
  end.

Inductive reachable : self -> Prop :=
| reachable_start : reachable main_window
| reachable_event (e : event) (s : self) :
    reachable s -> reachable (state_of (dispatch e s)).

End QApplication.

(** ** Vocabulary of the telemetry wire format

    The source never splits a line; the definitions of this part only serve
    to say which input lines a statement is about. *)

(** The 35 field names in wire order, as the interface description lists them. *)
Definition wire_format_fields : list string :=
  [ "DRONE_ID"; "TEAM_ID"; "MISSION_TIME"; "PACKET_COUNT"; "MODE"; "STATE";
    "ALTITUDE"; "TEMP"; "PRESSURE"; "VOLTAGE"; "GYRO_R"; "GYRO_P"; "GYRO_Y";
    "ACCEL_R"; "ACCEL_P"; "ACCEL_Y"; "MAG_R"; "MAG_P"; "MAG_Y"; "GPS_TIME";
    "GPS_ALT"; "LAT"; "LON"; "SATS"; "BATTERY"; "LINK_STATUS";
    "AUTONOMY_MODE"; "GEOFENCE_BREACH"; "PAYLOAD_STATUS"; "DETECTION_FLAG";
    "DETECTION_TYPE"; "DETECTION_CONF"; "DETECTION_LAT"; "DETECTION_LON";
    "CMD_ECHO" ].

(** Modelled from the spec: the split of a delimited record into fields,
    which the source does not have; it is [s.split(sep)] for a
    one-character separator. *)
Fixpoint split_on (sep : ascii) (s : string) : list string :=
  match s with
  | EmptyString => [EmptyString]
  | String c rest =>
      if Ascii.eqb c sep then EmptyString :: split_on sep rest
      else match split_on sep rest with
           | [] => [String c EmptyString]
           | field :: fields => String c field :: fields
           end
  end.

(** Modelled from the spec: the number of fields a record splits into, the
    delimiter being the comma of the CSV format. *)
Definition field_count (csv_line : string) : Z :=
  Z.of_nat (List.length (split_on "," csv_line)).

Definition expected_field_count : Z :=
  Z.of_nat (List.length TelemetryParser.CSV_FIELDS).

(** Modelled from the spec: a record is structurally well formed when it
    splits into one value per schema field. *)
Definition well_formed_record (csv_line : string) : bool :=
  Z.eqb (field_count csv_line) expected_field_count.

Definition sample_record : string :=
  "1,1000,00:01:23,42,F,ASCENT,120.5,25.1,1013.2,11.8,0.1,0.2,0.3,0.0,0.1,9.8,10,20,30,12:00:05,121.0,12.9716,77.5946,9,85,GOOD,AUTO,0,READY,1,CROP,0.87,12.9717,77.5947,CXON".

Definition short_record : string := "1,1000,00:01:23".

(** ** Ranges of the data-model invariant *)






(** ** Queries by drone id and time range *)

Definition in_mission_time_range (lo hi t : string) : bool :=
  (String.leb lo t && String.leb t hi)%bool.

Definition datetime_key (t : datetime) : list Z :=
  [year t; month t; day t; hour t; minute t; second t; microsecond t].

Fixpoint lex_leb (a b : list Z) : bool :=
  match a, b with
  | [], _ => true
  | _ :: _, [] => false
  | x :: a', y :: b' => (Z.ltb x y || (Z.eqb x y && lex_leb a' b'))%bool
  end.

Definition in_datetime_range (lo hi t : datetime) : bool :=
  (lex_leb (datetime_key lo) (datetime_key t)
   && lex_leb (datetime_key t) (datetime_key hi))%bool.

Definition max_battery (l : list DroneState.t) : Z :=
  fold_right (fun d m => Z.max (DroneState.battery d) m) 0 l.

(** ** Drone State Store *)

Module DroneStateStore.

(** Modelled from the spec: the snapshot that the Drone State Store holds.
    The source's [DroneState] has no packet sequence count, so the snapshot
    pairs the source's record with the count of the data model. *)
Record Snapshot : Type := mk_Snapshot {
  state : DroneState.t;
  packet_count : Z
}.

(** Modelled from the spec: the drone identifier a snapshot is stored under. *)
Definition snapshot_id (snapshot : Snapshot) : Z :=
  DroneState.drone_id (state snapshot).

(** Modelled from the spec: the result of [apply], success or the
    StalePacket error. *)
Inductive ApplyResult : Type :=
| Applied
| StalePacket.

(** Modelled from the spec: [get] of the Drone State Store, which the source
    does not have: the latest snapshot stored for a drone id, if any. *)
Definition get (drone_id : Z) (store : gmap Z Snapshot) : option Snapshot :=
  store !! drone_id.

(** Modelled from the spec: [apply] of the Drone State Store, which the source
    does not have.  A snapshot whose count is at most the stored count for
    its drone id is rejected as stale, unless nothing is stored for that id;
    otherwise it replaces the stored state. *)
Definition apply (snapshot : Snapshot) (store : gmap Z Snapshot)
  : ApplyResult * gmap Z Snapshot :=
  match store !! snapshot_id snapshot with
  | Some stored =>
      if Z.leb (packet_count snapshot) (packet_count stored)
      then (StalePacket, store)
      else (Applied, <[snapshot_id snapshot := snapshot]> store)
  | None => (Applied, <[snapshot_id snapshot := snapshot]> store)
  end.

End DroneStateStore.

(** ** Widgets of the left panel *)

Definition NEON_CYAN : string := "#19F9FF".
Definition NEON_GREEN : string := "#00FFA1".
Definition NEON_YELLOW : string := "#FFD700".

Definition newline_char : ascii := "010"%char.
Definition newline : string := String newline_char EmptyString.

Module StatusTile.
Record self : Type := mk {
  fixed_size : Z * Z;
  title : string;
  value : string;
  status_color : string;
  style_sheet : option string
}.

Definition init_ui : Py self unit :=
  assign (fun s =>
    mk (fixed_size s) (title s) (value s) (status_color s)
       (Some (newline
              ++ "            QWidget {" ++ newline
              ++ "                background: " ++ CARD_BG ++ ";" ++ newline
              ++ "                border: 2px solid " ++ status_color s ++ ";" ++ newline
              ++ "                border-radius: 8px;" ++ newline
              ++ "            }" ++ newline
              ++ "        "))).

(** The call [StatusTile(title)]. *)
Definition __init__ (title : string) : self :=
  state_of (init_ui {| fixed_size := (200, 120);
                       title := title;
                       value := "DEMO";
                       status_color := NEON_GREEN;
                       style_sheet := None |}).
End StatusTile.

Module SemicircleGauge.
Record self : Type := mk {
  title : string;
  min_val : float;
  max_val : float;
  current_val : float;
  fixed_size : Z * Z
}.

(** The call [SemicircleGauge(title, min_val, max_val)]; the bounds are
    declared as floats, and the whole numbers the panel passes stand for
    the floats of the same value. *)
Definition __init__ (title : string) (min_val max_val : float) : self :=
  {| title := title; min_val := min_val; max_val := max_val;
     current_val := 0%float; fixed_size := (200, 150) |}.

(** The calls a paint event makes on its [QPainter]; a pen built from a
    colour alone carries no width of its own. *)
Inductive painter_call : Type :=
| setRenderHint (hint : string)
| setPen (color : string) (width : option Z)
| drawArc (rect : Z * Z * Z * Z) (startAngle spanAngle : Z)
| drawText (rect : Z * Z * Z * Z) (flags : string) (text : string).

(** A gauge together with what has been painted on it so far. *)
Record painted : Type := mk_painted {
  gauge : self;
  canvas : list painter_call
}.

Definition paint (c : painter_call) : Py painted unit :=
  assign (fun p => mk_painted (gauge p) (canvas p ++ [c])%list).

Definition paintEvent : Py painted unit :=
  fun p =>
    let rect := (20, 40, 160, 80) in
    (paint (setRenderHint "Antialiasing") ;;;
     paint (setPen NEON_CYAN (Some 3)) ;;;
     paint (drawArc rect 0 (180 * 16)) ;;;
     paint (setPen NEON_YELLOW None) ;;;
     paint (drawText rect "AlignCenter" (title (gauge p) ++ newline ++ "DEMO"))) p.
End SemicircleGauge.

(** ** Panels built by the main window *)

Module Panels.

(** [enumerate(l)], counting from [start]. *)
Fixpoint enumerate {A : Type} (start : Z) (l : list A) : list (Z * A) :=
  match l with
  | [] => []
  | x :: rest => (start, x) :: enumerate (start + 1) rest
  end.

(** A [QGridLayout]: the widgets added so far, each with its row and column. *)
Definition addWidget (tile : StatusTile.self) (row column : Z)
    (layout : list (StatusTile.self * Z * Z)) : list (StatusTile.self * Z * Z) :=
  (layout ++ [(tile, row, column)])%list.

Definition tiles : list (string * string) :=
  [ ("Battery", "85%"); ("Link", "GOOD");
    ("Autonomy", "AUTO"); ("Geofence", "OK");
    ("Payload", "READY"); ("Detection", "ACTIVE") ].

(** The body of the loop over [enumerate(tiles)] in [create_left_panel]. *)
Definition place_tile (layout : list (StatusTile.self * Z * Z))
    (item : Z * (string * string)) : list (StatusTile.self * Z * Z) :=
  let '(i, (title, value)) := item in
  let tile := StatusTile.__init__ title in
  addWidget tile (i / 2) (i mod 2) layout.

Definition place_tiles (tiles : list (string * string))
    (layout : list (StatusTile.self * Z * Z)) : list (StatusTile.self * Z * Z) :=
  fold_left place_tile (enumerate 0 tiles) layout.

Definition gauges : list SemicircleGauge.self :=
  [ SemicircleGauge.__init__ "Altitude" 0%float 1000%float;
    SemicircleGauge.__init__ "Speed" 0%float 50%float;
    SemicircleGauge.__init__ "Battery" 0%float 100%float ].

(** The style every group box of the window is given. *)
Definition group_box_style : string :=
  "QGroupBox { color: " ++ NEON_YELLOW ++ "; font-weight: bold; }".

Record left_panel : Type := mk_left_panel {
  status_group_title : string;
  status_group_style : string;
  status_layout : list (StatusTile.self * Z * Z);
  gauge_group_title : string;
  gauge_group_style : string;
  gauge_layout : list SemicircleGauge.self
}.

Definition create_left_panel : left_panel :=
  {| status_group_title := "Dual-Drone Status";
     status_group_style := group_box_style;
     status_layout := place_tiles tiles [];
     gauge_group_title := "Real-time Gauges";
     gauge_group_style := group_box_style;
     gauge_layout := fold_left (fun layout g => (layout ++ [g])%list) gauges [] |}.

(** ** The mission log panel *)

Definition digit_char (d : Z) : ascii := ascii_of_nat (48 + Z.to_nat d).

(** A number below 100 printed on two digits, as [%H], [%M] and [%S] do. *)
Definition two_digits (n : Z) : string :=
  String (digit_char (n / 10)) (String (digit_char (n mod 10)) EmptyString).

(** [t.strftime('%H:%M:%S')]. *)
Definition strftime_HMS (t : datetime) : string :=
  two_digits (hour t) ++ ":" ++ two_digits (minute t) ++ ":" ++ two_digits (second t).

(** The time-of-day fields that a [datetime] can hold. *)
Definition valid_time (t : datetime) : bool :=
  (Z.leb 0 (hour t) && Z.ltb (hour t) 24
   && Z.leb 0 (minute t) && Z.ltb (minute t) 60
   && Z.leb 0 (second t) && Z.ltb (second t) 60)%bool.

(** [sep.join(l)]. *)
Fixpoint join (sep : string) (l : list string) : string :=
  match l with
  | [] => EmptyString
  | x :: rest =>
      match rest with
      | [] => x
      | _ :: _ => x ++ sep ++ join sep rest
      end
  end.

(** The four demo entries; each one reads the clock for itself, so they are
    given the four readings of [datetime.now()] in order. *)
Definition demo_logs (now1 now2 now3 now4 : datetime) : list string :=
  [ "[" ++ strftime_HMS now1 ++ "] Drone 1: TAKEOFF - Altitude: 15.2m";
    "[" ++ strftime_HMS now2 ++ "] Drone 2: MISSION_START - Mode: AUTO";
    "[" ++ strftime_HMS now3 ++ "] Detection: CROP detected at confidence 0.87";
    "[" ++ strftime_HMS now4 ++ "] Geofence: All drones within boundaries" ].

Record log_group : Type := mk_log_group {
  log_group_title : string;
  log_group_style : string;
  maximum_height : Z;
  log_text_style : string;
  log_read_only : bool;
  log_text : string
}.

Definition create_log_widget (now1 now2 now3 now4 : datetime) : log_group :=
  {| log_group_title := "Mission Event Log (Real-time + CSV Export)";
     log_group_style := group_box_style;
     maximum_height := 150;
     log_text_style :=
       "background: " ++ CARD_BG ++ "; color: " ++ NEON_GREEN ++ "; font-family: monospace;";
     log_read_only := true;
     log_text := join newline (demo_logs now1 now2 now3 now4) |}.

End Panels.

(** The cell and the tile of an item of the grid. *)
Definition item_cell (item : StatusTile.self * Z * Z) : Z * Z :=
  (snd (fst item), snd item).


(** What the loop adds for the entry at position [n] of the list. *)
Definition placed (n : nat) (entry : string * string) : StatusTile.self * Z * Z :=
  (StatusTile.__init__ (fst entry), Z.of_nat n / 2, Z.of_nat n mod 2).

(** Whether a character occurs in a string. *)
Fixpoint contains_char (c : ascii) (s : string) : bool :=
  match s with
  | EmptyString => false
  | String c' rest => (Ascii.eqb c' c || contains_char c rest)%bool
  end.

(** ** Sequences of database calls *)

Inductive db_call : Type :=
| call_log_telemetry (drone_state : DroneState.t)
| call_log_detection (detection : DetectionEvent.t).

Definition run_db_call (c : db_call) : Py MissionDatabase.self unit :=
  match c with
  | call_log_telemetry d => MissionDatabase.log_telemetry d
  | call_log_detection e => MissionDatabase.log_detection e
  end.

Fixpoint run_db_calls (calls : list db_call) : Py MissionDatabase.self unit :=
  match calls with
  | [] => ret tt
  | c :: rest => run_db_call c ;;; run_db_calls rest
  end.

(** * Properties *)

(** ** Placeholders do nothing *)

Section Placeholders.
Context {St : Type}.

Lemma pass_then_ret {A} (v : A) (st : St) : (pass ;;; ret v) st = (Returned v, st).
Proof. reflexivity. Qed.

Lemma parse_packet_None (csv_line : string) (st : St) :
  TelemetryParser.parse_packet csv_line st = (Returned None, st).
Proof. unfold TelemetryParser.parse_packet. apply pass_then_ret. Qed.

End Placeholders.

Lemma update_telemetry_id (s : NIDAR_GCS.self) :
  NIDAR_GCS.update_telemetry s = (Returned tt, s).
Proof. reflexivity. Qed.

Lemma emit_id (slots : list slot) (s : NIDAR_GCS.self) :
  QApplication.emit slots s = (Returned tt, s).
Proof.
  induction slots as [|sl rest IH]; simpl.
  - reflexivity.
  - destruct sl. unfold bind; simpl. exact IH.
Qed.

Lemma dispatch_id (e : QApplication.event) (s : NIDAR_GCS.self) :
  QApplication.dispatch e s = (Returned tt, s).
Proof.
  destruct e; unfold QApplication.dispatch.
  destruct (NIDAR_GCS.telemetry_timer s) as [t|]; [|reflexivity].
  destruct (active t); [apply emit_id | reflexivity].
Qed.

Lemma reachable_is_main_window (s : NIDAR_GCS.self) :
  QApplication.reachable s -> s = QApplication.main_window.
Proof.
  induction 1 as [|e s _ IH].
  - reflexivity.
  - rewrite dispatch_id. exact IH.
Qed.

Lemma log_telemetry_id (d : DroneState.t) (db : MissionDatabase.self) :
  MissionDatabase.log_telemetry d db = (Returned tt, db).
Proof. reflexivity. Qed.

Lemma log_detection_id (e : DetectionEvent.t) (db : MissionDatabase.self) :
  MissionDatabase.log_detection e db = (Returned tt, db).
Proof. reflexivity. Qed.

Lemma max_battery_bound (l : list DroneState.t) (d : DroneState.t) :
  In d l -> DroneState.battery d <= max_battery l.
Proof.
  induction l as [|x l IH]; simpl; [tauto|].
  intros [->|Hin]; [lia|].
  specialize (IH Hin). lia.
Qed.

Lemma main_window_drone_states :
  NIDAR_GCS.drone_states QApplication.main_window
  = <[2 := DroneState.__init__ 2]> (<[1 := DroneState.__init__ 1]> ∅).
Proof. reflexivity. Qed.


(** ** The field schema *)

(** C3: [TelemetryParser.CSV_FIELDS] is the list of the 35 field names of the
    telemetry wire format, in the wire order from DRONE_ID to CMD_ECHO (and
    no name occurs twice). *)
Theorem CSV_FIELDS_wire_order :
  TelemetryParser.CSV_FIELDS = wire_format_fields /\
  List.length TelemetryParser.CSV_FIELDS = 35%nat /\
  List.nth_error TelemetryParser.CSV_FIELDS 0 = Some "DRONE_ID" /\
  List.nth_error TelemetryParser.CSV_FIELDS 3 = Some "PACKET_COUNT" /\
  List.nth_error TelemetryParser.CSV_FIELDS 24 = Some "BATTERY" /\
  List.nth_error TelemetryParser.CSV_FIELDS 34 = Some "CMD_ECHO" /\
  List.nth_error TelemetryParser.CSV_FIELDS 35 = None /\
  List.NoDup TelemetryParser.CSV_FIELDS.
Proof.
  repeat (split; [reflexivity|]).
  unfold TelemetryParser.CSV_FIELDS.
  repeat (apply List.NoDup_cons; [simpl; intuition discriminate|]).
  apply List.NoDup_nil.
Qed.

(** ** The window's state over a session *)

Lemma run_events_id (events : list QApplication.event) (s : NIDAR_GCS.self) :
  QApplication.run_events events s = s.
Proof.
  revert s. induction events as [|e rest IH]; intros s; simpl.
  - reflexivity.
  - rewrite dispatch_id. apply IH.
Qed.

(** C7: construction of the window creates a DroneState for exactly the ids
    1 and 2, each with the declared defaults; whatever events the session
    delivers, the entries stay as created: no event mutates or removes one
    (so none is mutated by anything but a successful decode). *)
Theorem drone_states_created_at_start (events : list QApplication.event)
    (e : QApplication.event) (s : NIDAR_GCS.self) :
  dom (NIDAR_GCS.drone_states QApplication.main_window) = {[1; 2]} /\
  NIDAR_GCS.drone_states QApplication.main_window !! 1
  = Some (DroneState.mk 1 "1000" "--:--:--" 0%float 0 0%float 0%float
                        "GOOD" "AUTO" 0 "NONE") /\
  NIDAR_GCS.drone_states QApplication.main_window !! 2
  = Some (DroneState.mk 2 "1000" "--:--:--" 0%float 0 0%float 0%float
                        "GOOD" "AUTO" 0 "NONE") /\
  NIDAR_GCS.drone_states (QApplication.run_events events QApplication.main_window)
  = NIDAR_GCS.drone_states QApplication.main_window /\
  NIDAR_GCS.drone_states (state_of (QApplication.dispatch e s))
  = NIDAR_GCS.drone_states s.
Proof.
  split; [vm_compute; reflexivity|].
  split; [reflexivity|].
  split; [reflexivity|].
  split.
  - now rewrite run_events_id.
  - now rewrite dispatch_id.
Qed.

(** C8: the telemetry timer runs with an interval of 1000 ms, that is one
    timeout per second, with [update_telemetry] as its only slot; the slot,
    and so every timeout, returns normally and leaves the whole window state
    (drone_states, detection_events and the rest) as it was. *)
Theorem telemetry_timer_is_noop (s : NIDAR_GCS.self) :
  NIDAR_GCS.telemetry_timer QApplication.main_window
  = Some {| timeout_slots := [slot_update_telemetry];
            interval_ms := 1000;
            active := true |} /\
  timeouts_per_second
    {| timeout_slots := [slot_update_telemetry]; interval_ms := 1000; active := true |}
  = 1 /\
  NIDAR_GCS.update_telemetry s = (Returned tt, s) /\
  QApplication.dispatch QApplication.telemetry_timer_timeout s = (Returned tt, s) /\
  QApplication.dispatch QApplication.telemetry_timer_timeout QApplication.main_window
  = (Returned tt, QApplication.main_window).
Proof.
  split; [reflexivity|].
  split; [reflexivity|].
  split; [apply update_telemetry_id|].
  split; apply dispatch_id.
Qed.

(** ** The data-model ranges *)








(** ** The parser *)

(** C10: whatever the input line, [parse_packet] returns [None] and never a
    DroneState; and over a whole session no drone state is updated and no
    DetectionEvent is recorded. *)
Theorem parse_packet_always_None {St : Type} (csv_line : string) (st : St)
    (events : list QApplication.event) :
  TelemetryParser.parse_packet csv_line st = (Returned None, st) /\
  (forall d : DroneState.t,
      result_of (TelemetryParser.parse_packet csv_line st) <> Returned (Some d)) /\
  NIDAR_GCS.drone_states (QApplication.run_events events QApplication.main_window)
  = NIDAR_GCS.drone_states QApplication.main_window /\
  NIDAR_GCS.detection_events (QApplication.run_events events QApplication.main_window)
  = [].
Proof.
  rewrite parse_packet_None, run_events_id.
  repeat split. intros d; simpl; discriminate.
Qed.

(** C9: whatever the input line, well formed or not, [parse_packet] returns
    normally and raises no exception; neither does any timer event of the
    running application. *)
Theorem parse_packet_never_raises {St : Type} (csv_line : string) (st : St)
    (e : QApplication.event) (s : NIDAR_GCS.self) :
  (exists v, TelemetryParser.parse_packet csv_line st = (Returned v, st)) /\
  (forall exc_class : string,
      result_of (TelemetryParser.parse_packet csv_line st) <> Raised exc_class) /\
  result_of (QApplication.dispatch e s) = Returned tt.
Proof.
  rewrite parse_packet_None, dispatch_id.
  split; [now exists None|].
  split; [intros exc; simpl; discriminate | reflexivity].
Qed.

(** C1, as stated, fails: the sample line splits into the 35 schema fields,
    and [parse_packet] returns no snapshot for it. *)
Lemma sample_record_yields_no_snapshot :
  well_formed_record sample_record = true /\
  result_of (TelemetryParser.parse_packet sample_record QApplication.main_window)
  = Returned None /\
  ~ (exists snapshot : DroneState.t,
        result_of (TelemetryParser.parse_packet sample_record QApplication.main_window)
        = Returned (Some snapshot)).
Proof.
  split; [reflexivity|]. split; [reflexivity|].
  intros [snapshot H]. discriminate H.
Qed.

(** C1, amended: for every record that splits into the 35 schema fields,
    [parse_packet] returns [None] instead of a snapshot, nothing is applied,
    and the state stored for every drone id is what it was before the call. *)
Theorem parse_packet_well_formed_no_snapshot (csv_line : string) (gcs : NIDAR_GCS.self) :
  well_formed_record csv_line = true ->
  result_of (TelemetryParser.parse_packet csv_line gcs) = Returned None /\
  state_of (TelemetryParser.parse_packet csv_line gcs) = gcs /\
  (forall id : Z,
      NIDAR_GCS.drone_states (state_of (TelemetryParser.parse_packet csv_line gcs)) !! id
      = NIDAR_GCS.drone_states gcs !! id).
Proof.
  intros _. rewrite parse_packet_None. repeat split.
Qed.

Lemma parse_packet_well_formed_no_snapshot_witness :
  well_formed_record sample_record = true /\
  result_of (TelemetryParser.parse_packet sample_record QApplication.main_window)
  = Returned None.
Proof.
  split; [reflexivity|].
  apply (parse_packet_well_formed_no_snapshot sample_record QApplication.main_window).
  reflexivity.
Defined.

(** C2, as stated, fails: a line of three fields is answered with [None],
    not with a FieldCountMismatch error. *)
Lemma short_record_no_FieldCountMismatch :
  field_count short_record < expected_field_count /\
  result_of (TelemetryParser.parse_packet short_record QApplication.main_window)
  = Returned None /\
  result_of (TelemetryParser.parse_packet short_record QApplication.main_window)
  <> Raised "FieldCountMismatch".
Proof.
  split; [reflexivity|]. split; [reflexivity|]. discriminate.
Qed.

(** C2, amended: for every record that splits into fewer than 35 fields,
    [parse_packet] returns [None], reporting no error of any class, and the
    drone state store is left unchanged. *)
Theorem parse_packet_short_record (csv_line : string) (gcs : NIDAR_GCS.self) :
  field_count csv_line < expected_field_count ->
  result_of (TelemetryParser.parse_packet csv_line gcs) = Returned None /\
  (forall exc_class : string,
      result_of (TelemetryParser.parse_packet csv_line gcs) <> Raised exc_class) /\
  NIDAR_GCS.drone_states (state_of (TelemetryParser.parse_packet csv_line gcs))
  = NIDAR_GCS.drone_states gcs /\
  state_of (TelemetryParser.parse_packet csv_line gcs) = gcs.
Proof.
  intros _. rewrite parse_packet_None.
  repeat split. intros exc; simpl; discriminate.
Qed.

Lemma parse_packet_short_record_witness :
  field_count short_record < expected_field_count /\
  result_of (TelemetryParser.parse_packet short_record QApplication.main_window)
  = Returned None.
Proof.
  split; [reflexivity|].
  apply (parse_packet_short_record short_record QApplication.main_window).
  reflexivity.
Defined.

(** ** The mission database *)

(** C5, as stated, fails: no query over the database, by drone id and time
    range, returns every snapshot that was logged with [log_telemetry] (and
    every event logged with [log_detection]): the database after the call
    does not depend on what was logged. *)
Lemma logged_items_not_retrievable :
  ~ ((exists query : MissionDatabase.self -> Z -> string -> string -> list DroneState.t,
         forall (db : MissionDatabase.self) (d : DroneState.t) (lo hi : string),
           in_mission_time_range lo hi (DroneState.mission_time d) = true ->
           In d (query (state_of (MissionDatabase.log_telemetry d db))
                       (DroneState.drone_id d) lo hi)) /\
     (exists query : MissionDatabase.self -> Z -> datetime -> datetime
                     -> list DetectionEvent.t,
         forall (db : MissionDatabase.self) (ev : DetectionEvent.t) (lo hi : datetime),
           in_datetime_range lo hi (DetectionEvent.timestamp ev) = true ->
           In ev (query (state_of (MissionDatabase.log_detection ev db))
                        (DetectionEvent.drone_id ev) lo hi))).
Proof.
  intros [[query Hq] _].
  set (db := MissionDatabase.__init__ MissionDatabase.default_db_path).
  set (stored := query db 1 "--:--:--" "--:--:--").
  set (d := DroneState.mk 1 "1000" "--:--:--" 0%float (max_battery stored + 1)
                          0%float 0%float "GOOD" "AUTO" 0 "NONE").
  specialize (Hq db d "--:--:--" "--:--:--" eq_refl).
  change (In d stored) in Hq.
  apply max_battery_bound in Hq. simpl in Hq. lia.
Qed.

(** C5, amended: [log_telemetry] and [log_detection] return normally and
    record nothing: the database, which holds only its path, is the same
    after the call as before, whatever snapshot or event was passed. *)
Theorem log_calls_record_nothing (db : MissionDatabase.self)
    (d : DroneState.t) (ev : DetectionEvent.t) :
  MissionDatabase.log_telemetry d db = (Returned tt, db) /\
  MissionDatabase.log_detection ev db = (Returned tt, db) /\
  MissionDatabase.db_path (state_of (MissionDatabase.log_telemetry d db))
  = MissionDatabase.db_path db /\
  MissionDatabase.db_path (state_of (MissionDatabase.log_detection ev db))
  = MissionDatabase.db_path db.
Proof.
  rewrite log_telemetry_id, log_detection_id. repeat split.
Qed.

(** ** The drone state store *)

Section Store.
Import DroneStateStore.

Lemma apply_fresh (snapshot : Snapshot) (store : gmap Z Snapshot) :
  get (snapshot_id snapshot) store = None ->
  apply snapshot store = (Applied, <[snapshot_id snapshot := snapshot]> store).
Proof. unfold get, apply. now intros ->. Qed.

Lemma apply_stale (snapshot stored : Snapshot) (store : gmap Z Snapshot) :
  get (snapshot_id snapshot) store = Some stored ->
  packet_count snapshot <= packet_count stored ->
  apply snapshot store = (StalePacket, store).
Proof.
  unfold get, apply. intros -> Hle.
  apply Z.leb_le in Hle. now rewrite Hle.
Qed.

Lemma apply_Applied_stores (snapshot : Snapshot) (store store' : gmap Z Snapshot) :
  apply snapshot store = (Applied, store') ->
  get (snapshot_id snapshot) store' = Some snapshot.
Proof.
  unfold get, apply.
  destruct (store !! snapshot_id snapshot) as [stored|].
  - destruct (packet_count snapshot <=? packet_count stored)%Z; [discriminate|].
    intros [= <-]. apply lookup_insert_eq.
  - intros [= <-]. apply lookup_insert_eq.
Qed.

(** C4: once a snapshot has been applied successfully, applying the same
    snapshot again fails with StalePacket and the store still holds the
    first snapshot for that drone id; more generally any snapshot for that
    id whose packet count is at most the stored count is rejected and the
    store is kept, while a snapshot for an id without a stored record is
    accepted. *)
Theorem apply_replay_is_stale (first : Snapshot) (store store' : gmap Z Snapshot) :
  apply first store = (Applied, store') ->
  apply first store' = (StalePacket, store') /\
  get (snapshot_id first) store' = Some first /\
  (forall again : Snapshot,
      snapshot_id again = snapshot_id first ->
      packet_count again <= packet_count first ->
      apply again store' = (StalePacket, store') /\
      get (snapshot_id first) (snd (apply again store')) = Some first) /\
  (forall other : Snapshot,
      get (snapshot_id other) store' = None ->
      apply other store' = (Applied, <[snapshot_id other := other]> store')).
Proof.
  intros Hfirst.
  pose proof (apply_Applied_stores _ _ _ Hfirst) as Hget.
  assert (Hstale : forall again : Snapshot,
             snapshot_id again = snapshot_id first ->
             packet_count again <= packet_count first ->
             apply again store' = (StalePacket, store')).
  { intros again Hid Hle. apply (apply_stale again first); [now rewrite Hid | exact Hle]. }
  split; [apply Hstale; [reflexivity | lia]|].
  split; [exact Hget|].
  split.
  - intros again Hid Hle. rewrite (Hstale again Hid Hle). split; [reflexivity | exact Hget].
  - intros other. apply apply_fresh.
Qed.

Lemma apply_replay_is_stale_witness :
  let first := mk_Snapshot (DroneState.__init__ 1) 5 in
  apply first ∅ = (Applied, <[1 := first]> ∅) /\
  apply first (<[1 := first]> ∅) = (StalePacket, <[1 := first]> ∅).
Proof.
  intros first.
  assert (H : apply first ∅ = (Applied, <[1 := first]> ∅)) by reflexivity.
  split; [exact H|].
  exact (proj1 (apply_replay_is_stale first ∅ (<[1 := first]> ∅) H)).
Defined.

End Store.

(** ** The status tiles of the left panel *)

Lemma lookup_enumerate {A : Type} (l : list A) (start : Z) (n : nat) :
  Panels.enumerate start l !! n = (fun x => (start + Z.of_nat n, x)) <$> l !! n.
Proof.
  revert start n. induction l as [|x rest IH]; intros start n.
  - destruct n; reflexivity.
  - destruct n as [|n]; simpl.
    + do 2 f_equal. lia.
    + rewrite IH. destruct (rest !! n); simpl; [|reflexivity].
      do 2 f_equal. lia.
Qed.

Lemma fold_place_tile (items : list (Z * (string * string)))
    (layout : list (StatusTile.self * Z * Z)) :
  fold_left Panels.place_tile items layout
  = (layout ++ map (fun it => (StatusTile.__init__ (fst (snd it)),
                               fst it / 2, fst it mod 2)) items)%list.
Proof.
  revert layout. induction items as [|[i [title value]] rest IH]; intros layout; simpl.
  - now rewrite app_nil_r.
  - rewrite IH. unfold Panels.addWidget. now rewrite <- app_assoc.
Qed.

Lemma place_tiles_lookup (tiles : list (string * string)) (n : nat) :
  Panels.place_tiles tiles [] !! n = placed n <$> tiles !! n.
Proof.
  unfold Panels.place_tiles. rewrite fold_place_tile. simpl.
  change (map ?f ?l) with (f <$> l).
  rewrite list_lookup_fmap, lookup_enumerate.
  destruct (tiles !! n); reflexivity.
Qed.

Lemma place_tiles_length (tiles : list (string * string)) :
  List.length (Panels.place_tiles tiles []) = List.length tiles.
Proof.
  unfold Panels.place_tiles. rewrite fold_place_tile. simpl.
  rewrite length_map. clear. generalize 0.
  induction tiles as [|x rest IH]; intros start; simpl; [reflexivity|].
  now rewrite IH.
Qed.

(** X1: whatever list of tiles the loop of [create_left_panel] is given, no
    two tiles are put into the same cell of the grid. *)
Theorem place_tiles_cells_distinct (tiles : list (string * string)) :
  List.NoDup (map item_cell (Panels.place_tiles tiles [])).
Proof.
  apply NoDup_ListNoDup, NoDup_alt. intros i j cell Hi Hj.
  change (map ?f ?l) with (f <$> l) in Hi, Hj.
  rewrite list_lookup_fmap, place_tiles_lookup in Hi, Hj.
  destruct (tiles !! i) as [ei|]; [|discriminate].
  destruct (tiles !! j) as [ej|]; [|discriminate].
  simpl in Hi, Hj. injection Hi as <-. injection Hj as Hrow Hcol.
  assert (Z.of_nat i = Z.of_nat j); [|lia].
  rewrite (Z.div_mod (Z.of_nat i) 2), (Z.div_mod (Z.of_nat j) 2) by lia.
  lia.
Qed.

(** X2: the cells the loop fills are exactly the first [n] cells of a grid
    two columns wide, read row by row: a cell (row, column) holds a tile if
    and only if the column is 0 or 1, the row is not negative and
    2 * row + column is below the number of tiles. *)
Theorem place_tiles_fills_two_columns (tiles : list (string * string)) (row column : Z) :
  (exists tile, In (tile, row, column) (Panels.place_tiles tiles []))
  <-> (0 <= row /\ 0 <= column <= 1 /\ 2 * row + column < Z.of_nat (List.length tiles)).
Proof.
  split.
  - intros [tile Hin]. apply list_elem_of_In, list_elem_of_lookup in Hin as [n Hn].
    rewrite place_tiles_lookup in Hn.
    destruct (tiles !! n) as [entry|] eqn:Hentry; [|discriminate].
    apply lookup_lt_Some in Hentry.
    injection Hn as _ <- <-.
    pose proof (Z.mod_pos_bound (Z.of_nat n) 2 ltac:(lia)).
    pose proof (Z.div_mod (Z.of_nat n) 2 ltac:(lia)).
    pose proof (Z.div_pos (Z.of_nat n) 2 ltac:(lia) ltac:(lia)).
    lia.
  - intros (Hrow & Hcol & Hlt).
    assert (Hn : (Z.to_nat (2 * row + column) < List.length tiles)%nat) by lia.
    apply lookup_lt_is_Some_2 in Hn as [entry Hentry].
    exists (StatusTile.__init__ (fst entry)).
    apply list_elem_of_In, list_elem_of_lookup. exists (Z.to_nat (2 * row + column)).
    rewrite place_tiles_lookup, Hentry. simpl. unfold placed.
    rewrite Z2Nat.id by lia.
    replace (2 * row + column) with (column + row * 2) by lia.
    rewrite Z.div_add, Z.mod_add by lia.
    rewrite Z.div_small, Z.mod_small by lia.
    now rewrite Z.add_0_l.
Qed.

Lemma place_tiles_fills_two_columns_witness :
  exists tile, In (tile, 2, 1) (Panels.status_layout Panels.create_left_panel).
Proof.
  apply (proj2 (place_tiles_fills_two_columns Panels.tiles 2 1)).
  vm_compute. repeat split; discriminate.
Defined.



(** ** The mission log text *)

Lemma contains_char_app (c : ascii) (a b : string) :
  contains_char c (a ++ b) = (contains_char c a || contains_char c b)%bool.
Proof.
  induction a as [|x a IH]; simpl; [reflexivity|].
  rewrite IH. now rewrite orb_assoc.
Qed.

Lemma split_on_without_sep (sep : ascii) (a : string) :
  contains_char sep a = false -> split_on sep a = [a].
Proof.
  induction a as [|x a IH]; simpl; [reflexivity|].
  intros H. apply orb_false_elim in H as [Hx Ha].
  rewrite Hx, (IH Ha). reflexivity.
Qed.

Lemma split_on_app_sep (sep : ascii) (a rest : string) :
  contains_char sep a = false ->
  split_on sep (a ++ String sep rest) = a :: split_on sep rest.
Proof.
  induction a as [|x a IH]; simpl.
  - intros _. now rewrite Ascii.eqb_refl.
  - intros H. apply orb_false_elim in H as [Hx Ha].
    rewrite Hx, (IH Ha). reflexivity.
Qed.

(** Joining fields that do not contain the separator and splitting the
    result gives the fields back. *)
Lemma split_on_join (sep : ascii) (l : list string) :
  l <> [] ->
  Forall (fun x => contains_char sep x = false) l ->
  split_on sep (Panels.join (String sep EmptyString) l) = l.
Proof.
  induction l as [|x rest IH]; [congruence|].
  intros _ Hall. apply Forall_cons_1 in Hall as [Hx Hrest].
  destruct rest as [|y rest'].
  - simpl. now apply split_on_without_sep.
  - change (Panels.join (String sep EmptyString) (x :: y :: rest'))
      with (x ++ String sep (Panels.join (String sep EmptyString) (y :: rest'))).
    rewrite split_on_app_sep by exact Hx.
    f_equal. apply IH; [discriminate | exact Hrest].
Qed.

Lemma digit_cases (d : Z) :
  0 <= d <= 9 ->
  d = 0 \/ d = 1 \/ d = 2 \/ d = 3 \/ d = 4 \/ d = 5 \/ d = 6 \/ d = 7 \/ d = 8 \/ d = 9.
Proof. lia. Qed.

Lemma digit_char_not_newline (d : Z) :
  0 <= d <= 9 -> Ascii.eqb (Panels.digit_char d) newline_char = false.
Proof.
  intros H. apply digit_cases in H.
  repeat (destruct H as [->|H]; [reflexivity|]). subst d. reflexivity.
Qed.

Lemma digit_char_inj (a b : Z) :
  0 <= a <= 9 -> 0 <= b <= 9 -> Panels.digit_char a = Panels.digit_char b -> a = b.
Proof.
  intros Ha Hb H. unfold Panels.digit_char in H.
  apply (f_equal nat_of_ascii) in H.
  rewrite !nat_ascii_embedding in H by lia. lia.
Qed.

Lemma two_digits_no_newline (n : Z) :
  0 <= n < 100 -> contains_char newline_char (Panels.two_digits n) = false.
Proof.
  intros Hn. unfold Panels.two_digits. cbn [contains_char].
  assert (Hhi : 0 <= n / 10 <= 9).
  { split; [apply Z.div_pos; lia|].
    assert (n / 10 < 10) by (apply Z.div_lt_upper_bound; lia). lia. }
  assert (Hlo : 0 <= n mod 10 <= 9).
  { pose proof (Z.mod_pos_bound n 10 ltac:(lia)). lia. }
  rewrite (digit_char_not_newline _ Hhi), (digit_char_not_newline _ Hlo).
  reflexivity.
Qed.

Lemma two_digits_inj (n m : Z) :
  0 <= n < 100 -> 0 <= m < 100 -> Panels.two_digits n = Panels.two_digits m -> n = m.
Proof.
  intros Hn Hm H. unfold Panels.two_digits in H. injection H as Hhi Hlo.
  assert (Hb : forall k, 0 <= k < 100 -> 0 <= k / 10 <= 9 /\ 0 <= k mod 10 <= 9).
  { intros k Hk. pose proof (Z.mod_pos_bound k 10 ltac:(lia)).
    split; [|lia]. split; [apply Z.div_pos; lia|].
    assert (k / 10 < 10) by (apply Z.div_lt_upper_bound; lia). lia. }
  destruct (Hb n Hn) as [Hn1 Hn2]. destruct (Hb m Hm) as [Hm1 Hm2].
  apply digit_char_inj in Hhi; [|assumption..].
  apply digit_char_inj in Hlo; [|assumption..].
  rewrite (Z.div_mod n 10), (Z.div_mod m 10) by lia. lia.
Qed.

Lemma valid_time_bounds (t : datetime) :
  Panels.valid_time t = true ->
  0 <= hour t < 24 /\ 0 <= minute t < 60 /\ 0 <= second t < 60.
Proof.
  unfold Panels.valid_time.
  rewrite !andb_true_iff, !Z.leb_le, !Z.ltb_lt. lia.
Qed.

Lemma strftime_no_newline (t : datetime) :
  Panels.valid_time t = true ->
  contains_char newline_char (Panels.strftime_HMS t) = false.
Proof.
  intros Ht. apply valid_time_bounds in Ht as (Hh & Hm & Hs).
  unfold Panels.strftime_HMS.
  rewrite !contains_char_app, !two_digits_no_newline by lia.
  reflexivity.
Qed.

Lemma log_entry_no_newline (t : datetime) (message : string) :
  Panels.valid_time t = true ->
  contains_char newline_char message = false ->
  contains_char newline_char ("[" ++ Panels.strftime_HMS t ++ message) = false.
Proof.
  intros Ht Hm.
  rewrite !contains_char_app, (strftime_no_newline t Ht), Hm. reflexivity.
Qed.

(** X4: whatever times of day the clock returns for the four entries, the
    text put into the mission log has one line per entry: split at the
    newlines it gives back exactly the four demo entries, in order. *)
Theorem log_text_one_line_per_entry (now1 now2 now3 now4 : datetime) :
  Panels.valid_time now1 = true -> Panels.valid_time now2 = true ->
  Panels.valid_time now3 = true -> Panels.valid_time now4 = true ->
  split_on newline_char (Panels.log_text (Panels.create_log_widget now1 now2 now3 now4))
  = Panels.demo_logs now1 now2 now3 now4 /\
  List.length
    (split_on newline_char (Panels.log_text (Panels.create_log_widget now1 now2 now3 now4)))
  = 4%nat.
Proof.
  intros H1 H2 H3 H4.
  assert (Hsplit :
    split_on newline_char (Panels.log_text (Panels.create_log_widget now1 now2 now3 now4))
    = Panels.demo_logs now1 now2 now3 now4).
  { unfold Panels.create_log_widget, Panels.log_text, newline.
    apply split_on_join; [discriminate|].
    unfold Panels.demo_logs.
    repeat (apply Forall_cons_2;
            [apply log_entry_no_newline; [assumption | reflexivity]|]).
    apply Forall_nil_2. }
  split; [exact Hsplit|]. rewrite Hsplit. reflexivity.
Qed.

Lemma log_text_one_line_per_entry_witness :
  let t1 := mk_datetime 2025 3 9 9 5 7 0 in
  let t2 := mk_datetime 2025 3 9 9 5 8 0 in
  let t3 := mk_datetime 2025 3 9 23 59 59 999999 in
  let t4 := mk_datetime 2025 3 10 0 0 0 0 in
  split_on newline_char (Panels.log_text (Panels.create_log_widget t1 t2 t3 t4))
  = Panels.demo_logs t1 t2 t3 t4.
Proof.
  intros t1 t2 t3 t4.
  apply (proj1 (log_text_one_line_per_entry t1 t2 t3 t4
                  eq_refl eq_refl eq_refl eq_refl)).
Defined.

(** X5: the time stamp of a log entry is always eight characters long, and
    two valid times of day that print the same have the same hour, minute
    and second. *)
Theorem strftime_HMS_injective (t1 t2 : datetime) :
  Panels.valid_time t1 = true -> Panels.valid_time t2 = true ->
  Panels.strftime_HMS t1 = Panels.strftime_HMS t2 ->
  String.length (Panels.strftime_HMS t1) = 8%nat /\
  hour t1 = hour t2 /\ minute t1 = minute t2 /\ second t1 = second t2.
Proof.
  intros H1 H2 Heq.
  apply valid_time_bounds in H1 as (Hh1 & Hm1 & Hs1).
  apply valid_time_bounds in H2 as (Hh2 & Hm2 & Hs2).
  split; [reflexivity|].
  unfold Panels.strftime_HMS, Panels.two_digits in Heq. cbn [String.append] in Heq.
  injection Heq as Ha Hb Hc Hd He Hf.
  repeat split; apply two_digits_inj; try lia; unfold Panels.two_digits; congruence.
Qed.

Lemma strftime_HMS_injective_witness :
  String.length (Panels.strftime_HMS (mk_datetime 2025 3 9 9 5 7 0)) = 8%nat /\
  hour (mk_datetime 2025 3 9 9 5 7 0) = hour (mk_datetime 2024 1 1 9 5 7 120).
Proof.
  pose proof (strftime_HMS_injective (mk_datetime 2025 3 9 9 5 7 0)
                (mk_datetime 2024 1 1 9 5 7 120) eq_refl eq_refl eq_refl) as H.
  exact (conj (proj1 H) (proj1 (proj2 H))).
Defined.

(** ** Construction of the window *)

(** X6: [init_timers] can be run on any window, also one that has no timer
    yet or already has one: it raises nothing, installs a running timer of
    1000 ms with [update_telemetry] connected exactly once, and touches no
    other attribute; run a second time it does not connect the slot twice. *)
Theorem init_timers_fresh_timer (s : NIDAR_GCS.self) :
  result_of (NIDAR_GCS.init_timers s) = Returned tt /\
  NIDAR_GCS.telemetry_timer (state_of (NIDAR_GCS.init_timers s))
  = Some {| timeout_slots := [slot_update_telemetry];
            interval_ms := 1000; active := true |} /\
  state_of (NIDAR_GCS.init_timers s)
  = NIDAR_GCS.set_telemetry_timer
      {| timeout_slots := [slot_update_telemetry];
         interval_ms := 1000; active := true |} s /\
  state_of (NIDAR_GCS.init_timers (state_of (NIDAR_GCS.init_timers s)))
  = state_of (NIDAR_GCS.init_timers s).
Proof.
  destruct s as [ds de wt ge ss sp tt0]. repeat split.
Qed.

(** X8: in every state the running program reaches, each entry of
    [drone_states] is stored under its own drone id. *)
Theorem drone_states_keyed_by_id (s : NIDAR_GCS.self) (k : Z) (d : DroneState.t) :
  QApplication.reachable s ->
  NIDAR_GCS.drone_states s !! k = Some d ->
  DroneState.drone_id d = k.
Proof.
  intros Hs Hd. apply reachable_is_main_window in Hs. subst s.
  rewrite main_window_drone_states in Hd.
  apply lookup_insert_Some in Hd as [[<- <-]|[_ Hd]]; [reflexivity|].
  apply lookup_insert_Some in Hd as [[<- <-]|[_ Hd]]; [reflexivity|].
  rewrite lookup_empty in Hd. discriminate.
Qed.

Lemma drone_states_keyed_by_id_witness :
  DroneState.drone_id (DroneState.__init__ 2) = 2.
Proof.
  apply (drone_states_keyed_by_id
           (state_of (QApplication.dispatch QApplication.telemetry_timer_timeout
                                            QApplication.main_window))
           2 (DroneState.__init__ 2)).
  - apply QApplication.reachable_event, QApplication.reachable_start.
  - reflexivity.
Defined.

(** ** Sequences of database calls *)

(** X9: any sequence of [log_telemetry] and [log_detection] calls, in any
    order and of any length, returns normally and leaves the database as
    constructed: its path is still the one given to the constructor. *)
Theorem db_calls_leave_database (calls : list db_call) (path : string) :
  run_db_calls calls (MissionDatabase.__init__ path)
  = (Returned tt, MissionDatabase.__init__ path) /\
  MissionDatabase.db_path (state_of (run_db_calls calls (MissionDatabase.__init__ path)))
  = path.
Proof.
  assert (H : forall db, run_db_calls calls db = (Returned tt, db)).
  { induction calls as [|c rest IH]; intros db; simpl.
    - reflexivity.
    - destruct c; unfold bind; simpl; apply IH. }
  rewrite H. split; reflexivity.
Qed.

(** ** Painting a gauge *)

(** X10: a paint event only adds to what is painted and leaves the gauge as
    it is; what it draws is a half-turn arc and a text that does not depend
    on the gauge's minimum, maximum or current value: for a title without a
    newline the text has two lines, the title and DEMO. *)
Theorem paintEvent_draws_title_only (p : SemicircleGauge.painted) :
  contains_char newline_char (SemicircleGauge.title (SemicircleGauge.gauge p)) = false ->
  exists text : string,
    SemicircleGauge.paintEvent p
    = (Returned tt,
       SemicircleGauge.mk_painted
         (SemicircleGauge.gauge p)
         (SemicircleGauge.canvas p
          ++ [ SemicircleGauge.setRenderHint "Antialiasing";
               SemicircleGauge.setPen NEON_CYAN (Some 3);
               SemicircleGauge.drawArc (20, 40, 160, 80) 0 (360 * 16 / 2);
               SemicircleGauge.setPen NEON_YELLOW None;
               SemicircleGauge.drawText (20, 40, 160, 80) "AlignCenter" text ])%list) /\
    split_on newline_char text
    = [SemicircleGauge.title (SemicircleGauge.gauge p); "DEMO"].
Proof.
  intros Htitle.
  exists (SemicircleGauge.title (SemicircleGauge.gauge p) ++ newline ++ "DEMO").
  split.
  - unfold SemicircleGauge.paintEvent, SemicircleGauge.paint, bind, assign.
    cbn [SemicircleGauge.gauge SemicircleGauge.canvas].
    rewrite <- !app_assoc. reflexivity.
  - change (newline ++ "DEMO") with (String newline_char "DEMO").
    rewrite split_on_app_sep by exact Htitle. reflexivity.
Qed.

Lemma paintEvent_draws_title_only_witness :
  exists text : string,
    state_of (SemicircleGauge.paintEvent
                (SemicircleGauge.mk_painted
                   (SemicircleGauge.__init__ "Speed" 0%float 50%float) []))
    = SemicircleGauge.mk_painted
        (SemicircleGauge.__init__ "Speed" 0%float 50%float)
        [ SemicircleGauge.setRenderHint "Antialiasing";
          SemicircleGauge.setPen NEON_CYAN (Some 3);
          SemicircleGauge.drawArc (20, 40, 160, 80) 0 2880;
          SemicircleGauge.setPen NEON_YELLOW None;
          SemicircleGauge.drawText (20, 40, 160, 80) "AlignCenter" text ] /\
    split_on newline_char text = ["Speed"; "DEMO"].
Proof.
  destruct (paintEvent_draws_title_only
              (SemicircleGauge.mk_painted
                 (SemicircleGauge.__init__ "Speed" 0%float 50%float) [])
              eq_refl) as [text [Hpaint Hsplit]].
  exists text. split; [|exact Hsplit].
  rewrite Hpaint. reflexivity.
Defined.
